(** * bench/fasttimer: the two-tier callable timer

    A shallow embedding of [bench/fasttimer/__init__.py] and the properties
    of its module body (the [try]/[except] that selects an implementation)
    and of the fallback [timeit] it defines; then the functions the
    benchmark scripts hand to [timeit]: [fib.py], [maketree.py], [list.py]
    and [inner_loop.py]. *)

From Stdlib Require Import ZArith QArith Ascii String.
From stdpp Require Import base gmap strings list.

Local Open Scope string_scope.
Local Open Scope Z_scope.

(** ** The string operations the module body uses *)

Module PyStr.

(** [s.split(sep)] for a one-character separator: every occurrence of
    [sep] ends a field, so the result always has at least one field. *)
Fixpoint split (sep : ascii) (s : string) : list string :=
  match s with
  | EmptyString => [EmptyString]
  | String c s' =>
      if Ascii.eqb c sep then EmptyString :: split sep s'
      else match split sep s' with
           | [] => [String c EmptyString]
           | w :: ws => String c w :: ws
           end
  end.

(** [l[:-1]]: all but the last element, [[]] for the empty list. *)
Definition drop_last {A : Type} (l : list A) : list A := removelast l.

(** [sep.join(l)]. *)
Fixpoint join (sep : string) (l : list string) : string :=
  match l with
  | [] => EmptyString
  | [w] => w
  | w :: ws => w +:+ sep +:+ join sep ws
  end.

(** Whether [c] occurs in [s]. *)
Fixpoint occurs (c : ascii) (s : string) : bool :=
  match s with
  | EmptyString => false
  | String d s' => Ascii.eqb d c || occurs c s'
  end.

(** The part of [s] before its last occurrence of [sep], if there is one. *)
Fixpoint before_last (sep : ascii) (s : string) : option string :=
  match s with
  | EmptyString => None
  | String c s' =>
      match before_last sep s' with
      | Some p => Some (String c p)
      | None => if Ascii.eqb c sep then Some EmptyString else None
      end
  end.

End PyStr.

(** ** Locating the shared library (lines 5-8) *)

(** [path = __file__.split('/')[:-1]]
    [if not path: path = '.'] / [else: path = '/'.join(path)] *)
Definition path_of (file : string) : string :=
  let path := PyStr.drop_last (PyStr.split "/" file) in
  match path with
  | [] => "."
  | _ => PyStr.join "/" path
  end.

(** The argument of [ffi.open]: [path + '/_mpytimer.so']. *)
Definition library_path (file : string) : string :=
  path_of file +:+ "/_mpytimer.so".

(** The directory portion as the specification words it: the
    components of the file path before the last ['/'], and ['.'] when the
    path has no ['/']. *)
Definition directory_portion (file : string) : string :=
  match PyStr.before_last "/" file with
  | Some d => d
  | None => "."
  end.

(** ** Values, effects and the environment of the module *)

(** A raised Python exception, identified by its class name. *)
Inductive Exc : Type := Exception (cls : string).

(** The outcome of evaluating Python code: a value, or a raised exception. *)
Inductive Res (A : Type) : Type :=
| Ret (a : A)
| Raise (e : Exc).
Arguments Ret {A} a.
Arguments Raise {A} e.

Section Model.
Context {U : Type}.

(** What the benchmarked callables act on: the wall clock (in seconds) and
    the caller's own data. *)
Record World : Type := MkWorld { clock : Q; user : U }.

(** A zero-argument callable supplied by the caller. *)
Definition Callable : Type := World → Res unit * World.

(** The object made by [ffi.callback]: a native function pointer that
    enters the wrapped callable. Every construction makes a new object,
    told apart by [tramp_id]. *)
Record Trampoline : Type := MkTrampoline { tramp_id : nat; tramp_target : Callable }.

(** Handles of an opened library and of a resolved symbol. *)
Definition Lib : Type := nat.
Definition NativeFn : Type := nat.

(** The [timeit] of the compiled [_fasttimer] extension. *)
Definition Timer : Type := Callable → option Z → World → Res Q * World.

(** The objects bound in the module's namespace. *)
Inductive Value : Type :=
| VStr (s : string)
| VList (l : list string)
| VModule (name : string)
| VLib (h : Lib)
| VNative (f : NativeFn)
| VBuiltin (t : Timer)
| VDefTimeit.

(** What the module asks of its surroundings, in the order it asks. *)
Inductive Event : Type :=
| EvImport (name : string)
| EvOpen (path : string)
| EvFunc (h : Lib) (ret name args : string)
| EvCallback (ret : string) (target : Callable) (args : string) (id : nat)
| EvCall (f : NativeFn) (cb : Trampoline) (number : Z).

(** The surroundings of the module: its own file name, what the two
    imports find, and the [ffi] module's answers. *)
Record Env : Type := MkEnv {
  module_file : string;
  fasttimer_import : Res Timer;
  ffi_import : Res unit;
  dl_open : string → Res Lib;
  dl_sym : Lib → string → string → string → Res NativeFn;
  native_call : NativeFn → Trampoline → Z → World → Res Q * World
}.

(** The interpreter state: the module namespace, the log of requests made,
    the next trampoline identity, and the world. *)
Record State : Type := MkState {
  globals : gmap string Value;
  trace : list Event;
  next_tramp : nat;
  world : World
}.

(** Computations that read and write the state and may raise. *)
Definition M (A : Type) : Type := State → Res A * State.

Definition ret {A : Type} (a : A) : M A := λ st, (Ret a, st).

Definition raise {A : Type} (cls : string) : M A := λ st, (Raise (Exception cls), st).

Definition bind {A B : Type} (m : M A) (k : A → M B) : M B :=
  λ st, match m st with
        | (Ret a, st') => k a st'
        | (Raise e, st') => (Raise e, st')
        end.

(** [try: body] / [except: handler], the handler catching every exception. *)
Definition try_except {A : Type} (body handler : M A) : M A :=
  λ st, match body st with
        | (Ret a, st') => (Ret a, st')
        | (Raise _, st') => handler st'
        end.

Definition lift_res {A : Type} (r : Res A) : M A := λ st, (r, st).

Definition emit (e : Event) : M unit :=
  λ st, (Ret tt, MkState (globals st) (trace st ++ [e]) (next_tramp st) (world st)).

(** Binding a global name. *)
Definition store_name (x : string) (v : Value) : M unit :=
  λ st, (Ret tt, MkState (<[x := v]> (globals st)) (trace st) (next_tramp st) (world st)).

(** Reading a global name. *)
Definition load_name (x : string) : M Value :=
  λ st, match globals st !! x with
        | Some v => (Ret v, st)
        | None => (Raise (Exception "NameError"), st)
        end.

(** Running code that only sees the world. *)
Definition in_world {A : Type} (f : World → Res A * World) : M A :=
  λ st, let (r, w) := f (world st) in
        (r, MkState (globals st) (trace st) (next_tramp st) w).

End Model.

Arguments World U : clear implicits.
Arguments Callable U : clear implicits.
Arguments Trampoline U : clear implicits.
Arguments Timer U : clear implicits.
Arguments Value U : clear implicits.
Arguments Event U : clear implicits.
Arguments Env U : clear implicits.
Arguments State U : clear implicits.
Arguments M U A : clear implicits.

Declare Scope py_scope.
Delimit Scope py_scope with py.
Notation "x <- m ;; k" := (bind m (λ x, k))
  (at level 20, m at level 99, k at level 200, only parsing) : py_scope.
Notation "m ;; k" := (bind m (λ _, k))
  (at level 100, k at level 200, only parsing, right associativity) : py_scope.

(** ** The module body and the fallback [timeit] *)

(** The [ffi] module, which is not part of this repository, reads a
    signature string one type code per character. These are the codes the
    module writes, with the C types the specification gives for them. *)
Inductive CType : Type := TVoid | TInt | TDouble | TCallback.

Definition ctype_of (c : ascii) : option CType :=
  if Ascii.eqb c "v" then Some TVoid
  else if Ascii.eqb c "i" then Some TInt
  else if Ascii.eqb c "d" then Some TDouble
  else if Ascii.eqb c "C" then Some TCallback
  else None.

Fixpoint signature (s : string) : option (list CType) :=
  match s with
  | EmptyString => Some []
  | String c s' =>
      match ctype_of c, signature s' with
      | Some t, Some ts => Some (t :: ts)
      | _, _ => None
      end
  end.

Section Program.
Context {U : Type}.
Local Open Scope py_scope.

(** Truth value of an object, as [if not path] tests it. *)
Definition truthy (v : Value U) : bool :=
  match v with
  | VStr s => negb (String.eqb s EmptyString)
  | VList l => match l with [] => false | _ => true end
  | _ => true
  end.

Definition py_split (v : Value U) (sep : ascii) : M U (list string) :=
  match v with
  | VStr s => ret (PyStr.split sep s)
  | _ => raise "AttributeError"
  end.

Definition py_join (sep : string) (v : Value U) : M U string :=
  match v with
  | VList l => ret (PyStr.join sep l)
  | _ => raise "TypeError"
  end.

Definition py_add (v : Value U) (s : string) : M U string :=
  match v with
  | VStr p => ret (p +:+ s)
  | _ => raise "TypeError"
  end.

(** Attribute access on the name [ffi]: it has to be the [ffi] module. *)
Definition is_ffi (v : Value U) : M U unit :=
  match v with
  | VModule name => if String.eqb name "ffi" then ret tt else raise "AttributeError"
  | _ => raise "AttributeError"
  end.

(** [ffi.open(name)] *)
Definition ffi_open (env : Env U) (m : Value U) (name : string) : M U Lib :=
  is_ffi m;;
  emit (EvOpen name);;
  lift_res (dl_open env name).

(** [lib.func(ret, name, args)] *)
Definition lib_func (env : Env U) (l : Value U) (ret name args : string) : M U NativeFn :=
  match l with
  | VLib h => emit (EvFunc h ret name args);; lift_res (dl_sym env h ret name args)
  | _ => raise "AttributeError"
  end.

(** [ffi.callback(ret, target, args)]: a new trampoline object each time. *)
Definition ffi_callback (m : Value U) (ret : string) (target : Callable U) (args : string)
  : M U (Trampoline U) :=
  is_ffi m;;
  λ st, (Ret (MkTrampoline (next_tramp st) target),
         MkState (globals st)
                 (trace st ++ [EvCallback ret target args (next_tramp st)])
                 (S (next_tramp st))
                 (world st)).

(** Calling a resolved symbol with a trampoline and a count. *)
Definition call_native (env : Env U) (f : Value U) (cb : Trampoline U) (number : Z) : M U Q :=
  match f with
  | VNative a => emit (EvCall a cb number);; in_world (native_call env a cb number)
  | _ => raise "TypeError"
  end.

(** Lines 10-12:
    [def timeit(callback,number=1000000):]
    [    cb = ffi.callback('v',callback,'')]
    [    return _timeit(cb,number)] *)
Definition timeit (env : Env U) (callback : Callable U) (number : option Z) : M U Q :=
  let number := default 1000000 number in
  ffi <- load_name "ffi";;
  cb <- ffi_callback ffi "v" callback EmptyString;;
  _timeit <- load_name "_timeit";;
  call_native env _timeit cb number.

(** Lines 1-2: [from ._fasttimer import timeit]. Of the names the import
    leaves in the namespace only [timeit] is kept: the import system's own
    entry for the submodule [_fasttimer] is read by nothing in the module
    and no statement below speaks of it. *)
Definition primary (env : Env U) : M U unit :=
  emit (EvImport "._fasttimer");;
  t <- lift_res (fasttimer_import env);;
  store_name "timeit" (VBuiltin t).

(** Lines 4-10, the body of the [except:] clause. *)
Definition fallback (env : Env U) : M U unit :=
  (* import ffi *)
  emit (EvImport "ffi");;
  lift_res (ffi_import env);;
  store_name "ffi" (VModule "ffi");;
  (* path = __file__.split('/')[:-1] *)
  file <- load_name "__file__";;
  parts <- py_split file "/";;
  store_name "path" (VList (PyStr.drop_last parts));;
  (* if not path: path = '.' *)
  (* else: path = '/'.join(path) *)
  path <- load_name "path";;
  (if negb (truthy path) then store_name "path" (VStr ".")
   else (joined <- py_join "/" path;; store_name "path" (VStr joined)));;
  (* lib = ffi.open(path + '/_mpytimer.so') *)
  ffi <- load_name "ffi";;
  path <- load_name "path";;
  name <- py_add path "/_mpytimer.so";;
  h <- ffi_open env ffi name;;
  store_name "lib" (VLib h);;
  (* _timeit = lib.func('d','timeit','Ci') *)
  lib <- load_name "lib";;
  f <- lib_func env lib "d" "timeit" "Ci";;
  store_name "_timeit" (VNative f);;
  (* def timeit(callback,number=1000000): ... *)
  store_name "timeit" VDefTimeit.

(** The whole module body: [try: primary] / [except: fallback]. *)
Definition fasttimer_init (env : Env U) : M U unit :=
  try_except (primary env) (fallback env).

(** The state in which the module body starts: a namespace holding only
    [__file__], nothing logged. *)
Definition init_state (env : Env U) (w : World U) : State U :=
  MkState {[ "__file__" := VStr (module_file env) ]} [] 0 w.

(** A caller's [timeit(callback, number)] through the exported name. *)
Definition call_timeit (env : Env U) (callback : Callable U) (number : option Z) : M U Q :=
  f <- load_name "timeit";;
  match f with
  | VBuiltin t => in_world (t callback number)
  | VDefTimeit => timeit env callback number
  | _ => raise "TypeError"
  end.

(** The implementation strategy selected by the module body. *)
Inductive Strategy : Type :=
| Compiled (t : Timer U)
| DynamicFallback.

Definition strategy (st : State U) : option Strategy :=
  match globals st !! "timeit" with
  | Some (VBuiltin t) => Some (Compiled t)
  | Some VDefTimeit => Some DynamicFallback
  | _ => None
  end.

End Program.

(** ** The native side of the fallback path *)

Section Native.
Context {U : Type}.

(** Modelled from the spec: the trampoline made by [ffi.callback] (the [ffi]
    module belongs to the interpreter, not to this repository). A native caller enters it as a
    function taking no arguments and returning nothing; it runs the wrapped
    callable, and an exception of the callable leaves through it. *)
Definition invoke (cb : Trampoline U) : World U → Res unit * World U :=
  tramp_target cb.

(** Modelled from the spec: the tight loop of the timer, [n] back-to-back
    invocations, the first exception aborting the remaining ones. *)
Fixpoint call_times (f : World U → Res unit * World U) (n : nat) (w : World U)
  : Res unit * World U :=
  match n with
  | O => (Ret tt, w)
  | S n' =>
      match f w with
      | (Ret _, w') => call_times f n' w'
      | (Raise e, w') => (Raise e, w')
      end
  end.

(** Modelled from the spec: the [timeit] symbol exported by [_mpytimer.so],
    the C source of which is not among the files of [bench/fasttimer]
    verified here: given a callback pointer and an [int] count it reads the clock,
    invokes the callback [count] times, reads the clock again and returns
    the elapsed seconds as a [double]; when the callback raises, no duration
    is returned. *)
Definition mpytimer_timeit (cb : Trampoline U) (count : Z) (w : World U)
  : Res Q * World U :=
  let before := clock w in
  match call_times (invoke cb) (Z.to_nat count) w with
  | (Ret _, w') => (Ret (clock w' - before)%Q, w')
  | (Raise e, w') => (Raise e, w')
  end.

(** The environment answers calls of the resolved symbol [f] as the
    exported timer does. *)
Definition exports_timer (env : Env U) (f : NativeFn) : Prop :=
  ∀ cb count w, native_call env f cb count w = mpytimer_timeit cb count w.

(** The callable raises [e] on its [k]-th invocation in a row from [w]:
    the [k - 1] invocations before it return. *)
Definition raises_on (f : Callable U) (k : nat) (w : World U) (e : Exc) : Prop :=
  (1 ≤ k)%nat ∧
  ∃ w', call_times f (k - 1) w = (Ret tt, w') ∧ (f w').1 = Raise e.

(** The clock does not run backwards while the callable runs. *)
Definition clock_monotone (f : Callable U) : Prop :=
  ∀ w, (clock w <= clock (f w).2)%Q.

(** The module namespace as the fallback path leaves it, as far as
    [timeit] reads it: [ffi] is the module and [_timeit] the symbol [f]. *)
Definition fallback_loaded (f : NativeFn) (st : State U) : Prop :=
  globals st !! "ffi" = Some (VModule "ffi") ∧
  globals st !! "_timeit" = Some (VNative f).

End Native.

(** ** Reading logs, and callers that call more than once *)

Section Observations.
Context {U : Type}.

(** The paths handed to [ffi.open]. *)
Definition opened_paths (t : list (Event U)) : list string :=
  omap (λ ev, match ev with
              | EvOpen p => Some p
              | _ => None
              end) t.

(** The symbols asked of a library, with the signature strings given. *)
Definition resolved_symbols (t : list (Event U)) : list (Lib * string * string * string) :=
  omap (λ ev, match ev with
              | EvFunc h ret name args => Some (h, ret, name, args)
              | _ => None
              end) t.

(** The [ffi.callback] constructions, with the identity each one got. *)
Definition callbacks_made (t : list (Event U)) : list (string * Callable U * string * nat) :=
  omap (λ ev, match ev with
              | EvCallback ret target args id => Some (ret, target, args, id)
              | _ => None
              end) t.

(** The native calls made, with their arguments. *)
Definition native_calls (t : list (Event U)) : list (NativeFn * Trampoline U * Z) :=
  omap (λ ev, match ev with
              | EvCall f cb number => Some (f, cb, number)
              | _ => None
              end) t.

(** What of the module outlives a call: its namespace, the libraries it
    opened and the symbols it resolved. *)
Definition module_state (st : State U)
  : gmap string (Value U) * list string * list (Lib * string * string * string) :=
  (globals st, opened_paths (trace st), resolved_symbols (trace st)).

(** A caller making one call after the other, going on after a call that
    raised. *)
Fixpoint run_calls (call : Callable U → option Z → M U Q)
    (cs : list (Callable U * option Z)) (st : State U) : State U :=
  match cs with
  | [] => st
  | (callback, number) :: cs' => run_calls call cs' (call callback number st).2
  end.

(** The namespace once the fallback path has computed [path]. *)
Definition loaded_path (env : Env U) : gmap string (Value U) :=
  <["path" := VStr (path_of (module_file env))]>
    (<["path" := VList (PyStr.drop_last (PyStr.split "/" (module_file env)))]>
       (<["ffi" := VModule "ffi"]> {[ "__file__" := VStr (module_file env) ]})).

End Observations.

(** ** A concrete setting, used to run the definitions *)

Module Sample.

(** A callable that takes one second. *)
Definition tick : Callable unit :=
  λ w, (Ret tt, MkWorld (clock w + 1)%Q (user w)).

(** A callable that raises on its first call. *)
Definition failing : Callable unit :=
  λ w, (Raise (Exception "ValueError"), w).

(** A callable that raises once three seconds have passed. *)
Definition fragile : Callable unit :=
  λ w, if Qle_bool 3 (clock w) then (Raise (Exception "ValueError"), w)
       else (Ret tt, MkWorld (clock w + 1)%Q (user w)).

(** A compiled timer (it reports the number of calls asked for). *)
Definition compiled : Timer unit :=
  λ _ number w, (Ret (inject_Z (default 1000000 number)), w).

(** An installation where the shared library is present and exports the
    timer; [imp] is what importing [._fasttimer] does. *)
Definition env (imp : Res (Timer unit)) : Env unit :=
  MkEnv "bench/fasttimer/__init__.py" imp (Ret tt)
        (λ _, Ret 1%nat) (λ _ _ _ _, Ret 2%nat) (λ _, mpytimer_timeit).

(** An installation without the shared library. *)
Definition env_no_library : Env unit :=
  MkEnv "bench/fasttimer/__init__.py" (Raise (Exception "ImportError")) (Ret tt)
        (λ _, Raise (Exception "OSError")) (λ _ _ _ _, Ret 2%nat) (λ _, mpytimer_timeit).

Definition w0 : World unit := MkWorld 0 tt.

(** The state after the module was loaded through its fallback path. *)
Definition loaded : State unit :=
  (fasttimer_init (env (Raise (Exception "ImportError")))
                  (init_state (env (Raise (Exception "ImportError"))) w0)).2.

End Sample.

(** * The benchmark scripts that call [timeit] *)

(** ** Recursive functions under a bound on the call stack *)

(** A computation that keeps a count (of calls made, of objects made) and
    may raise. *)
Definition Counted (A : Type) : Type := nat → Res A * nat.

Definition and_then {A B : Type} (m : Counted A) (k : A → Counted B) : Counted B :=
  λ c, match m c with
       | (Ret a, c') => k a c'
       | (Raise e, c') => (Raise e, c')
       end.

(** What a call does when no frame is left on the call stack: the
    interpreter raises its recursion error ([RecursionError] in CPython). *)
Definition stack_overflow {A : Type} : Counted A :=
  λ c, (Raise (Exception "RecursionError"), c).

(** ** [bench/fib.py] *)

Module Fib.

(** Lines 2-4:
    [def fib(n):]
    [    if n < 2: return n]
    [    return fib(n-2) + fib(n-1)]
    [frames] is the number of frames the call stack still has room for;
    the count is the number of calls of [fib] entered. *)
Fixpoint fib (frames : nat) (n : Z) : Counted Z :=
  match frames with
  | O => stack_overflow
  | S frames' =>
      λ c,
        (if n <? 2 then λ c', (Ret n, c')
         else and_then (fib frames' (n - 2)) (λ a,
              and_then (fib frames' (n - 1)) (λ b,
              λ c', (Ret (a + b), c')))) (S c)
  end.

(** Lines 1-5: [def __main__():] defines [fib] and evaluates [fib(30)],
    returning nothing. *)
Definition __main__ (frames : nat) : Counted unit :=
  match frames with
  | O => stack_overflow
  | S frames' => and_then (fib frames' 30) (λ _, λ c, (Ret tt, c))
  end.

(** The Fibonacci numbers [0, 1, 1, 2, 3, 5, ...], by iteration on a pair. *)
Fixpoint fib_pair (k : nat) : Z * Z :=
  match k with
  | O => (0, 1)
  | S k' => let '(a, b) := fib_pair k' in (b, a + b)
  end.

Definition fibonacci (k : nat) : Z := (fib_pair k).1.

(** How deep the calls of [fib] nest within [fib(n)]: a number of frames
    that is enough for the call. *)
Definition frames_needed (n : Z) : nat := Z.to_nat (Z.max n 1).

End Fib.

(** ** [bench/maketree.py] *)

Module MakeTree.

(** Lines 1-4: [class Node], whose [__init__] stores [left] and [right];
    a child is another node or [None]. *)
#[warnings="-register-all"]
Inductive Node : Type := MkNode (left right : option Node).

(** [Node(left, right)]: entering [__init__] takes a frame of its own. *)
Definition new_node (frames : nat) (left right : option Node) : Counted Node :=
  match frames with
  | O => stack_overflow
  | S _ => λ c, (Ret (MkNode left right), S c)
  end.

(** Lines 6-10:
    [def makeTree(depth):]
    [    if depth <= 0: return Node(None,None)]
    [    n1 = makeTree(depth-1)]
    [    n2 = makeTree(depth-1)]
    [    return Node(n1,n2)]
    The count is the number of [Node] objects constructed. *)
Fixpoint makeTree (frames : nat) (depth : Z) : Counted Node :=
  match frames with
  | O => stack_overflow
  | S frames' =>
      if depth <=? 0 then new_node frames' None None
      else and_then (makeTree frames' (depth - 1)) (λ n1,
           and_then (makeTree frames' (depth - 1)) (λ n2,
           new_node frames' (Some n1) (Some n2)))
  end.

(** The number of nodes of a tree. *)
Fixpoint size (t : Node) : nat :=
  match t with
  | MkNode l r =>
      S (match l with Some n => size n | None => 0 end
         + match r with Some n => size n | None => 0 end)
  end.

(** Whether every node has two children or none, with every leaf [h]
    links below the root. *)
Fixpoint is_perfect (h : nat) (t : Node) : bool :=
  match h, t with
  | O, MkNode None None => true
  | S h', MkNode (Some l) (Some r) => is_perfect h' l && is_perfect h' r
  | _, _ => false
  end.

(** The height of the tree [makeTree(depth)] builds; that many frames
    and two more, for the call itself and the [__init__] of a leaf, are
    enough for the call. *)
Definition height_for (depth : Z) : nat := Z.to_nat (Z.max depth 0).

End MakeTree.

(** ** [bench/list.py] *)

Module ListBench.

(** The one list object [l] of the script (line 3); [add] and [pop]
    (lines 4-5) are its bound methods, so both act on it. *)
Definition Store : Type := list Z.

(** [add(x)], that is [l.append(x)]. *)
Definition add (x : Z) (l : Store) : Res unit * Store := (Ret tt, (l ++ [x])%list).

(** [pop()], that is [l.pop()]: the last element is removed and returned;
    on the empty list [IndexError] is raised. *)
Definition pop (l : Store) : Res Z * Store :=
  match last l with
  | Some x => (Ret x, removelast l)
  | None => (Raise (Exception "IndexError"), l)
  end.

(** Lines 7-9:
    [def func():]
    [    add(1)]
    [    pop()] *)
Definition func (l : Store) : Res unit * Store :=
  match add 1 l with
  | (Ret _, l1) =>
      match pop l1 with
      | (Ret _, l2) => (Ret tt, l2)
      | (Raise e, l2) => (Raise e, l2)
      end
  | (Raise e, l1) => (Raise e, l1)
  end.

(** [n] calls in a row, as a timer makes them, stopping at an exception. *)
Fixpoint calls {S : Type} (f : S → Res unit * S) (n : nat) (s : S) : Res unit * S :=
  match n with
  | O => (Ret tt, s)
  | S n' =>
      match f s with
      | (Ret _, s') => calls f n' s'
      | (Raise e, s') => (Raise e, s')
      end
  end.

End ListBench.

(** ** [bench/inner_loop.py] *)

Module InnerLoop.

(** [range(n)] *)
Definition range (n : nat) : list Z := Z.of_nat <$> seq 0 n.

(** Line 3:
    [xs = [[[x for x in range(30)] for y in range(30)] for z in range(30)]]
    Every comprehension makes a list of its own, so no two rows are the
    same object. *)
Definition cube : list (list (list Z)) :=
  (λ _, (λ _, (λ x, x) <$> range 30) <$> range 30) <$> range 30.

(** [l[i][j][k] = v], with [IndexError] for an index out of range. *)
Definition set_item3 (l : list (list (list Z))) (i j k : nat) (v : Z)
  : Res (list (list (list Z))) :=
  match l !! i with
  | None => Raise (Exception "IndexError")
  | Some ys =>
      match ys !! j with
      | None => Raise (Exception "IndexError")
      | Some zs =>
          if decide (k < length zs)%nat
          then Ret (<[i := <[j := <[k := v]> zs]> ys]> l)
          else Raise (Exception "IndexError")
      end
  end.

(** Line 4: [xs[29][29][29] = 42] *)
Definition xs : Res (list (list (list Z))) := set_item3 cube 29 29 29 42.

(** What can be raised inside the three functions. *)
Inductive Raisable : Type :=
| FoundIt (needle : Z)
| UnboundLocalError.

(** How a statement ends. *)
Inductive Ctl : Type :=
| Normal
| Break
| Continue
| Return (v : option Z)
| Throw (e : Raisable).

(** The local variable [z] of a function, unbound at first, and the number
    of times [z == 42] was evaluated so far. *)
Record Locals : Type := MkLocals { z : option Z; tests : nat }.

Definition Stmt : Type := Locals → Ctl * Locals.

(** A statement that only passes control on. *)
Definition jump (c : Ctl) : Stmt := λ st, (c, st).

(** [s1] followed by [s2]. *)
Definition then_ (s1 s2 : Stmt) : Stmt :=
  λ st, match s1 st with
        | (Normal, st') => s2 st'
        | r => r
        end.

(** [for x in l: body] / [else: orelse]. [break] leaves the loop past the
    [else] clause, [continue] goes to the next element, and the [else]
    clause runs when the elements are used up. *)
Fixpoint for_in {A : Type} (l : list A) (body : A → Stmt) (orelse : Stmt) : Stmt :=
  λ st, match l with
        | [] => orelse st
        | x :: l' =>
            match body x st with
            | (Normal, st') | (Continue, st') => for_in l' body orelse st'
            | (Break, st') => (Normal, st')
            | r => r
            end
        end.

(** [for z in zs: if z == 42: hit]: the loop binds [z], then the test. *)
Definition for_z (zs : list Z) (hit : Z → Stmt) (orelse : Stmt) : Stmt :=
  for_in zs
    (λ x st, let st' := MkLocals (Some x) (S (tests st)) in
             if x =? 42 then hit x st' else (Normal, st'))
    orelse.

(** Reading the local [z]. *)
Definition return_z : Stmt :=
  λ st, match z st with
        | Some v => (Return (Some v), st)
        | None => (Throw UnboundLocalError, st)
        end.

(** [try: body] / [except FoundIt as e: handler]. *)
Definition try_FoundIt (body : Stmt) (handler : Z → Stmt) : Stmt :=
  λ st, match body st with
        | (Throw (FoundIt needle), st') => handler needle st'
        | r => r
        end.

(** Lines 6-20, the body of [breaks]. *)
Definition breaks_body (xs : list (list (list Z))) : Stmt :=
  then_
    (for_in xs
       (λ ys,
          then_
            (for_in ys
               (λ zs,
                  then_ (for_z zs (λ _, jump Break) (jump Continue))
                        (jump Break))
               (jump Continue))
            (jump Break))
       (jump (Return None)))
    return_z.

(** Lines 26-34, the body of [exceptions]. *)
Definition exceptions_body (xs : list (list (list Z))) : Stmt :=
  try_FoundIt
    (for_in xs
       (λ ys,
          for_in ys
            (λ zs, for_z zs (λ x, jump (Throw (FoundIt x))) (jump Normal))
            (jump Normal))
       (jump Normal))
    (λ needle, jump (Return (Some needle))).

(** Lines 36-41, the body of [_inner]. *)
Definition _inner_body (xs : list (list (list Z))) : Stmt :=
  for_in xs
    (λ ys,
       for_in ys
         (λ zs, for_z zs (λ _, return_z) (jump Normal))
         (jump Normal))
    (jump Normal).

(** Calling a function: fresh locals; falling off the end returns [None],
    and an exception that was not caught leaves the call. *)
Definition call (body : Stmt) : Res (option Z) :=
  match (body (MkLocals None 0)).1 with
  | Normal => Ret None
  | Return v => Ret v
  | Throw (FoundIt _) => Raise (Exception "FoundIt")
  | Throw UnboundLocalError => Raise (Exception "UnboundLocalError")
  | Break | Continue => Raise (Exception "SyntaxError")
  end.

(** The number of tests [z == 42] a call makes. *)
Definition tests_made (body : Stmt) : nat := tests (body (MkLocals None 0)).2.

Definition breaks (xs : list (list (list Z))) : Res (option Z) := call (breaks_body xs).
Definition exceptions (xs : list (list (list Z))) : Res (option Z) := call (exceptions_body xs).
Definition _inner (xs : list (list (list Z))) : Res (option Z) := call (_inner_body xs).

(** Lines 43-44: [def functions(): return _inner()] *)
Definition functions (xs : list (list (list Z))) : Res (option Z) := _inner xs.

(** Whether 42 is among the numbers, and how many of them are looked at up
    to and with the first 42. *)
Definition has_needle (l : list Z) : bool := existsb (λ x, x =? 42) l.

Fixpoint looked_at (l : list Z) : nat :=
  match l with
  | [] => 0
  | x :: l' => if x =? 42 then 1 else S (looked_at l')
  end.

(** The numbers of [xs] in the order the loops visit them. *)
Definition flatten (xs : list (list (list Z))) : list Z := concat (concat xs).

(** How a loop ends when its body ends as [c]: [None] when it goes on. *)
Definition loop_exit (c : Ctl) : option Ctl :=
  match c with
  | Normal | Continue => None
  | Break => Some Normal
  | Return v => Some (Return v)
  | Throw e => Some (Throw e)
  end.

(** A statement that looks through [l]: it ends as [hit] with [z] bound to
    42 when 42 is there and as [miss] when not, after testing what
    [looked_at] counts. *)
Definition searches (l : list Z) (hit miss : Ctl) (s : Stmt) : Prop :=
  ∀ st,
    if has_needle l
    then s st = (hit, MkLocals (Some 42) (tests st + looked_at l))
    else ∃ z', s st = (miss, MkLocals z' (tests st + looked_at l)).

End InnerLoop.

(** * Properties *)

(** ** Splitting and joining *)

Module PyStrFacts.
Import PyStr.

Lemma join_cons_char sep d w ws :
  join sep (String d w :: ws) = String d (join sep (w :: ws)).
Proof. destruct ws; reflexivity. Qed.

(** The fields before the last one, joined again, are the text before
    the last separator; there are none exactly when there is no separator. *)
Lemma split_before_last c s :
  ∃ ws w, split c s = (ws ++ [w])%list ∧
          before_last c s =
            match ws with
            | [] => None
            | _ => Some (join (String c EmptyString) ws)
            end.
Proof.
  induction s as [|d s (ws & w & Hs & Hb)]; simpl.
  - exists [], EmptyString. done.
  - rewrite Hs, Hb. destruct (Ascii.eqb d c) eqn:Hd.
    + apply Ascii.eqb_eq in Hd as ->.
      exists (EmptyString :: ws), w. split; [done|].
      destruct ws; reflexivity.
    + destruct ws as [|w0 ws]; simpl.
      * exists [], (String d w). done.
      * exists (String d w0 :: ws), w. split; [done|].
        by rewrite join_cons_char.
Qed.

Lemma before_last_none c s : before_last c s = None ↔ occurs c s = false.
Proof.
  induction s as [|d s IH]; simpl; [done|].
  destruct (before_last c s).
  - split; [done|]. intros [_ H]%orb_false_elim. apply IH in H. done.
  - destruct (Ascii.eqb d c); simpl; [done|]. tauto.
Qed.

Lemma before_last_app c d name :
  occurs c name = false →
  before_last c (d +:+ String c name) = Some d.
Proof.
  intros H%before_last_none. induction d as [|x d IH]; simpl.
  - by rewrite H, Ascii.eqb_refl.
  - by rewrite IH.
Qed.

End PyStrFacts.

(** The path the module computes is the directory portion of its file. *)
Lemma path_of_directory file : path_of file = directory_portion file.
Proof.
  unfold path_of, directory_portion, PyStr.drop_last.
  destruct (PyStrFacts.split_before_last "/" file) as (ws & w & -> & ->).
  rewrite removelast_last. by destruct ws.
Qed.

Lemma directory_portion_plain file :
  PyStr.occurs "/" file = false → directory_portion file = ".".
Proof.
  intros H%PyStrFacts.before_last_none. unfold directory_portion. by rewrite H.
Qed.

Lemma directory_portion_app d name :
  PyStr.occurs "/" name = false → directory_portion (d +:+ String "/" name) = d.
Proof.
  intros H. unfold directory_portion. by rewrite PyStrFacts.before_last_app.
Qed.

(** ** Stepping through the statements *)

Section Steps.
Context {U : Type}.
Implicit Types (env : Env U) (w : World U) (st : State U).

Lemma bind_ret {A B} (a : A) (k : A → M U B) st : bind (ret a) k st = k a st.
Proof. reflexivity. Qed.

Lemma bind_emit {B} ev (k : unit → M U B) st :
  bind (emit ev) k st =
  k tt (MkState (globals st) (trace st ++ [ev]) (next_tramp st) (world st)).
Proof. reflexivity. Qed.

Lemma bind_store {B} x v (k : unit → M U B) st :
  bind (store_name x v) k st =
  k tt (MkState (<[x := v]> (globals st)) (trace st) (next_tramp st) (world st)).
Proof. reflexivity. Qed.

Lemma bind_load {B} x v (k : Value U → M U B) st :
  globals st !! x = Some v → bind (load_name x) k st = k v st.
Proof. intros H. unfold bind, load_name. by rewrite H. Qed.

Lemma bind_lift_ret {A B} (a : A) (k : A → M U B) st :
  bind (lift_res (Ret a)) k st = k a st.
Proof. reflexivity. Qed.

Lemma bind_lift_raise {A B} e (k : A → M U B) st :
  bind (lift_res (Raise e)) k st = (Raise e, st).
Proof. reflexivity. Qed.

Lemma bind_raise {A B} cls (k : A → M U B) st :
  bind (raise cls) k st = (Raise (Exception cls), st).
Proof. reflexivity. Qed.

Lemma bind_bind {A B C} (m : M U A) (k : A → M U B) (k' : B → M U C) st :
  bind (bind m k) k' st = bind m (λ a, bind (k a) k') st.
Proof. unfold bind. destruct (m st) as [[a|e] st']; reflexivity. Qed.

End Steps.

Ltac py_step :=
  first
    [ rewrite bind_bind
    | rewrite bind_ret
    | rewrite bind_emit
    | rewrite bind_store
    | rewrite bind_lift_ret
    | rewrite bind_lift_raise
    | rewrite bind_raise
    | erewrite bind_load by (cbn [globals]; simplify_map_eq; reflexivity) ];
  cbn [globals trace next_tramp world app].

(** ** What loading the module does *)

Section Loading.
Context {U : Type}.
Implicit Types (env : Env U) (w : World U) (st : State U).

(** The module body, case by case on what its surroundings answer. *)
Lemma fasttimer_init_run env w :
  fasttimer_init env (init_state env w) =
  match fasttimer_import env with
  | Ret t =>
      (Ret tt, MkState (<["timeit" := VBuiltin t]> {[ "__file__" := VStr (module_file env) ]})
                       [EvImport "._fasttimer"] 0 w)
  | Raise _ =>
      match ffi_import env with
      | Raise e =>
          (Raise e, MkState {[ "__file__" := VStr (module_file env) ]}
                            [EvImport "._fasttimer"; EvImport "ffi"] 0 w)
      | Ret _ =>
          let t3 := [EvImport "._fasttimer"; EvImport "ffi";
                     EvOpen (library_path (module_file env))] in
          match dl_open env (library_path (module_file env)) with
          | Raise e => (Raise e, MkState (loaded_path env) t3 0 w)
          | Ret h =>
              let t4 := (t3 ++ [EvFunc h "d" "timeit" "Ci"])%list in
              match dl_sym env h "d" "timeit" "Ci" with
              | Raise e => (Raise e, MkState (<["lib" := VLib h]> (loaded_path env)) t4 0 w)
              | Ret f =>
                  (Ret tt,
                   MkState (<["timeit" := VDefTimeit]>
                              (<["_timeit" := VNative f]>
                                 (<["lib" := VLib h]> (loaded_path env))))
                           t4 0 w)
              end
          end
      end
  end.
Proof.
  unfold fasttimer_init, try_except, primary, init_state.
  py_step. destruct (fasttimer_import env) as [t|e0].
  { by repeat py_step. }
  py_step. unfold fallback. py_step.
  destruct (ffi_import env) as [[]|e1]; [|by py_step].
  do 3 py_step. unfold py_split. do 3 py_step.
  assert (Hpath : ∀ {B} (k : unit → M U B) g t n,
    bind (if negb (truthy (U:=U) (VList (PyStr.drop_last (PyStr.split "/" (module_file env)))))
          then store_name "path" (VStr ".")
          else bind (py_join (U:=U) "/" (VList (PyStr.drop_last (PyStr.split "/" (module_file env)))))
                    (λ joined, store_name "path" (VStr joined)))
         k (MkState g t n w)
    = k tt (MkState (<["path" := VStr (path_of (module_file env))]> g) t n w)).
  { intros B k g t n. unfold path_of.
    destruct (PyStr.drop_last _); reflexivity. }
  rewrite Hpath. do 2 py_step. unfold py_add. py_step.
  unfold ffi_open, is_ffi. cbn [String.eqb Ascii.eqb Bool.eqb]. do 3 py_step.
  fold (library_path (module_file env)). fold (loaded_path env).
  destruct (dl_open env _) as [h|e2]; [|by py_step].
  do 3 py_step. unfold lib_func. do 2 py_step.
  destruct (dl_sym env h _ _ _) as [f|e3]; [|by py_step].
  py_step. py_step. reflexivity.
Qed.

Lemma loaded_path_timeit env : loaded_path env !! "timeit" = None.
Proof. unfold loaded_path. by simplify_map_eq. Qed.

(** C1: the module body tries the import of [._fasttimer] first; when it
    succeeds the exported [timeit] is the compiled module's and nothing
    else is asked for; when it raises, the [except] clause runs, [import
    ffi] being the next request, and with [ffi], the library and the symbol
    there the module loads with [timeit] the ffi-based definition; [timeit]
    is that definition only when the import raised, and then it is whenever
    the module loads. *)
Theorem timeit_two_tier env w :
  let run := fasttimer_init env (init_state env w) in
  head (trace run.2) = Some (EvImport "._fasttimer") ∧
  (∀ t, fasttimer_import env = Ret t →
        run.1 = Ret tt ∧ strategy run.2 = Some (Compiled t) ∧
        trace run.2 = [EvImport "._fasttimer"]) ∧
  (strategy run.2 = Some DynamicFallback → ∃ e, fasttimer_import env = Raise e) ∧
  (∀ e, fasttimer_import env = Raise e → run.1 = Ret tt →
        strategy run.2 = Some DynamicFallback) ∧
  (∀ e, fasttimer_import env = Raise e →
        take 2 (trace run.2) = [EvImport "._fasttimer"; EvImport "ffi"]) ∧
  (∀ e h f,
     fasttimer_import env = Raise e →
     ffi_import env = Ret tt →
     dl_open env (library_path (module_file env)) = Ret h →
     dl_sym env h "d" "timeit" "Ci" = Ret f →
     run.1 = Ret tt ∧ strategy run.2 = Some DynamicFallback ∧
     trace run.2 = [EvImport "._fasttimer"; EvImport "ffi";
                    EvOpen (library_path (module_file env));
                    EvFunc h "d" "timeit" "Ci"]).
Proof.
  intros run. subst run. rewrite fasttimer_init_run. unfold strategy.
  destruct (fasttimer_import env) as [t|e0].
  { cbn. simplify_map_eq. naive_solver. }
  destruct (ffi_import env) as [[]|e1]; cbn; [|naive_solver].
  destruct (dl_open env _) as [h|e2] eqn:Hopen; cbn.
  2: { rewrite loaded_path_timeit. naive_solver. }
  destruct (dl_sym env h _ _ _) as [f|e3] eqn:Hsym; cbn.
  - simplify_map_eq. repeat split; naive_solver.
  - rewrite lookup_insert_ne, loaded_path_timeit by done.
    repeat split; try naive_solver.
    all: simplify_eq; congruence.
Qed.

(** C2: when the import of [._fasttimer] raises and the fallback fails too
    ([import ffi] raises, the library cannot be opened, or the symbol
    cannot be resolved), loading the module raises that error and leaves
    [timeit] unbound; whatever [timeit] is bound to after the module body
    is the compiled timer or the ffi-based definition, nothing else. *)
Theorem no_third_fallback env w :
  let run := fasttimer_init env (init_state env w) in
  (∀ e0 e,
     fasttimer_import env = Raise e0 →
     ffi_import env = Raise e
     ∨ (ffi_import env = Ret tt ∧
        dl_open env (library_path (module_file env)) = Raise e)
     ∨ (ffi_import env = Ret tt ∧
        ∃ h, dl_open env (library_path (module_file env)) = Ret h ∧
             dl_sym env h "d" "timeit" "Ci" = Raise e) →
     run.1 = Raise e ∧ globals run.2 !! "timeit" = None) ∧
  (∀ v, globals run.2 !! "timeit" = Some v →
        (∃ t, fasttimer_import env = Ret t ∧ v = VBuiltin t) ∨ v = VDefTimeit) ∧
  (run.1 = Ret tt → is_Some (strategy run.2)).
Proof.
  intros run. subst run. rewrite fasttimer_init_run. unfold strategy. split.
  - intros e0 e -> [H | [[H1 H2] | [H1 (h & H2 & H3)]]].
    + rewrite H. done.
    + rewrite H1, H2. cbn. by rewrite loaded_path_timeit.
    + rewrite H1, H2. cbn. rewrite H3. cbn.
      by rewrite lookup_insert_ne, loaded_path_timeit.
  - destruct (fasttimer_import env) as [t|e0].
    { cbn. simplify_map_eq. split; [|by eexists].
      intros v [= <-]. left. by eexists. }
    destruct (ffi_import env) as [[]|e1]; cbn; [|done].
    destruct (dl_open env _) as [h|e2]; cbn.
    2: { by rewrite loaded_path_timeit. }
    destruct (dl_sym env h _ _ _) as [f|e3]; cbn.
    2: { by rewrite lookup_insert_ne, loaded_path_timeit. }
    simplify_map_eq. split; [|by eexists]. intros v [= <-]. by right.
Qed.

(** C3: on the fallback path the module resolves, from the library it
    opened, exactly one symbol: [timeit], with the signature strings ['d']
    (returning a double) and ['Ci'] (taking a callback pointer and an
    integer); what is resolved is bound to [_timeit]. *)
Theorem symbol_resolution_contract env w e h :
  fasttimer_import env = Raise e →
  ffi_import env = Ret tt →
  dl_open env (library_path (module_file env)) = Ret h →
  let run := fasttimer_init env (init_state env w) in
  resolved_symbols (trace run.2) = [(h, "d", "timeit", "Ci")] ∧
  signature "d" = Some [TDouble] ∧
  signature "Ci" = Some [TCallback; TInt] ∧
  (∀ f, dl_sym env h "d" "timeit" "Ci" = Ret f →
        globals run.2 !! "_timeit" = Some (VNative f)).
Proof.
  intros H0 H1 H2 run. subst run. rewrite fasttimer_init_run, H0, H1, H2. cbn.
  repeat split.
  - by destruct (dl_sym env h _ _ _).
  - intros f ->. cbn. by simplify_map_eq.
Qed.

(** C4: on the fallback path the one library the module opens is
    ['/_mpytimer.so'] appended to the directory portion of the module's own
    file path: what comes before the last ['/'] of [__file__], and ['.']
    when [__file__] has no ['/']. *)
Theorem library_location env w e :
  fasttimer_import env = Raise e →
  ffi_import env = Ret tt →
  opened_paths (trace (fasttimer_init env (init_state env w)).2)
  = [directory_portion (module_file env) +:+ "/_mpytimer.so"] ∧
  (PyStr.occurs "/" (module_file env) = false →
   directory_portion (module_file env) = ".") ∧
  (∀ d name, module_file env = d +:+ String "/" name →
             PyStr.occurs "/" name = false →
             directory_portion (module_file env) = d).
Proof.
  intros H0 H1. rewrite fasttimer_init_run, H0, H1. cbn. split; [|split].
  - unfold library_path. rewrite path_of_directory.
    destruct (dl_open env _) as [h|?]; [|done]. cbn.
    by destruct (dl_sym env h _ _ _).
  - apply directory_portion_plain.
  - intros d name -> Hn. by apply directory_portion_app.
Qed.

(** C9: whatever exception the import of [._fasttimer] raises, of any
    class, the module body goes on with the fallback path from the state
    the failed import left; the exception itself plays no further part. *)
Theorem any_exception_diverts env w e :
  fasttimer_import env = Raise e →
  fasttimer_init env (init_state env w)
  = fallback env (MkState {[ "__file__" := VStr (module_file env) ]}
                          [EvImport "._fasttimer"] 0 w).
Proof.
  intros H. unfold fasttimer_init, try_except, primary, init_state.
  py_step. rewrite H. by py_step.
Qed.

End Loading.

(** ** What a call does *)

Section Calling.
Context {U : Type}.
Implicit Types (env : Env U) (w : World U) (st : State U) (callback : Callable U).

(** The fallback [timeit] in a namespace the fallback path has set up. *)
Lemma timeit_run env f callback number st :
  fallback_loaded f st →
  timeit env callback number st =
  let n := default 1000000 number in
  let cb := MkTrampoline (next_tramp st) callback in
  ((native_call env f cb n (world st)).1,
   MkState (globals st)
           (trace st ++ [EvCallback "v" callback EmptyString (next_tramp st);
                         EvCall f cb n])
           (S (next_tramp st))
           (native_call env f cb n (world st)).2).
Proof.
  intros [Hffi Hsym]. unfold timeit.
  rewrite (bind_load _ _ _ _ Hffi). unfold ffi_callback, is_ffi. cbn [String.eqb Ascii.eqb Bool.eqb].
  rewrite bind_bind, bind_ret. unfold bind at 1.
  rewrite (bind_load _ (VNative f)) by exact Hsym.
  unfold call_native. rewrite bind_emit. unfold in_world. cbn.
  rewrite <- app_assoc. by destruct (native_call env f _ _ _).
Qed.

Lemma init_fallback_loaded env w e h f :
  fasttimer_import env = Raise e →
  ffi_import env = Ret tt →
  dl_open env (library_path (module_file env)) = Ret h →
  dl_sym env h "d" "timeit" "Ci" = Ret f →
  fallback_loaded f (fasttimer_init env (init_state env w)).2.
Proof.
  intros H0 H1 H2 H3. rewrite fasttimer_init_run, H0, H1, H2. cbn. rewrite H3.
  unfold fallback_loaded, loaded_path. cbn. by simplify_map_eq.
Qed.

(** A call of the fallback [timeit] binds no global name, opens no library
    and resolves no symbol, in whatever state it is made. *)
Lemma timeit_frame env callback number st :
  module_state (timeit env callback number st).2 = module_state st.
Proof.
  unfold timeit, module_state, bind, load_name, ffi_callback, is_ffi, bind, ret, raise.
  destruct (globals st !! "ffi") as [v|]; [|done].
  destruct v as [| |name| | | |]; try done.
  destruct (String.eqb name "ffi"); [|done]. cbn.
  destruct (globals st !! "_timeit") as [v|];
    [|cbn; unfold opened_paths, resolved_symbols; by rewrite !omap_app, !app_nil_r].
  unfold call_native, bind, emit, in_world, raise.
  destruct v as [| | | |f| |]; cbn;
    try (unfold opened_paths, resolved_symbols; by rewrite !omap_app, !app_nil_r).
  destruct (native_call env f _ _ _). cbn.
  unfold opened_paths, resolved_symbols. by rewrite !omap_app, !app_nil_r.
Qed.

(** The same for a call through the exported name, whichever strategy it
    is bound to. *)
Lemma call_timeit_frame env callback number st :
  module_state (call_timeit env callback number st).2 = module_state st.
Proof.
  unfold call_timeit, bind, load_name.
  destruct (globals st !! "timeit") as [v|]; [|done].
  destruct v as [| | | | |t|]; try done.
  - unfold in_world. by destruct (t callback number (world st)).
  - apply timeit_frame.
Qed.

Lemma run_calls_frame (call : Callable U → option Z → M U Q) cs st :
  (∀ c n st', module_state (call c n st').2 = module_state st') →
  module_state (run_calls call cs st) = module_state st.
Proof.
  intros Hcall. revert st. induction cs as [|[c n] cs IH]; intros st; [done|].
  cbn. by rewrite IH, Hcall.
Qed.

(** What [timeit] reads of the namespace is still there after any calls. *)
Lemma fallback_loaded_calls env f cs st :
  fallback_loaded f st → fallback_loaded f (run_calls (call_timeit env) cs st).
Proof.
  intros Hst.
  pose proof (run_calls_frame (call_timeit env) cs st (call_timeit_frame env)) as H.
  unfold module_state in H. injection H as Hg _ _.
  unfold fallback_loaded. by rewrite Hg.
Qed.

(** The timing loop stops at the first invocation that raises. *)
Lemma call_times_raises (f : World U → Res unit * World U) k n w e :
  raises_on f k w e → (k ≤ n)%nat → (call_times f n w).1 = Raise e.
Proof.
  intros [Hk (w' & Hrun & He)]. revert n w Hrun.
  induction k as [|k IH]; [lia|]. intros n w Hrun Hn.
  destruct n as [|n]; [lia|]. cbn [call_times].
  replace (S k - 1)%nat with k in Hrun by lia.
  destruct k as [|k].
  - cbn in Hrun. injection Hrun as <-.
    destruct (f w) as [[[]|e'] w1]; cbn in He; [done|]. by injection He as ->.
  - cbn [call_times] in Hrun.
    destruct (f w) as [[[]|e'] w1]; [|done].
    apply IH; [lia| |lia].
    by replace (S k - 1)%nat with k by lia.
Qed.

(** While the clock does not run backwards during an invocation, it does
    not during the loop. *)
Lemma call_times_clock (f : World U → Res unit * World U) n w :
  clock_monotone f → (clock w <= clock (call_times f n w).2)%Q.
Proof.
  intros Hf. revert w. induction n as [|n IH]; intros w; cbn.
  - apply Qle_refl.
  - specialize (Hf w). destruct (f w) as [[[]|e] w1]; cbn in *; [|done].
    eapply Qle_trans; [exact Hf|apply IH].
Qed.

(** The loop returns when no invocation raises. *)
Lemma call_times_returns (f : World U → Res unit * World U) n w :
  (∀ w', ∃ w'', f w' = (Ret tt, w'')) → (call_times f n w).1 = Ret tt.
Proof.
  intros Hf. revert w. induction n as [|n IH]; intros w; cbn; [done|].
  destruct (Hf w) as [w1 ->]. apply IH.
Qed.

(** C5: in a namespace set up by the fallback path, [timeit(callback,
    number)] makes one trampoline for [callback], calls the resolved
    symbol exactly once, with that trampoline and [number], and its outcome
    and effect on the world are those of that native call, unchanged;
    leaving [number] out is passing [1000000]. *)
Theorem fallback_call_behaviour env f callback number st :
  fallback_loaded f st →
  let n := default 1000000 number in
  let cb := MkTrampoline (next_tramp st) callback in
  let run := timeit env callback number st in
  trace run.2 = (trace st ++ [EvCallback "v" callback EmptyString (next_tramp st);
                              EvCall f cb n])%list ∧
  native_calls (drop (length (trace st)) (trace run.2)) = [(f, cb, n)] ∧
  run.1 = (native_call env f cb n (world st)).1 ∧
  world run.2 = (native_call env f cb n (world st)).2 ∧
  timeit env callback None st = timeit env callback (Some 1000000) st.
Proof.
  intros Hst n cb run. subst run. rewrite (timeit_run env f) by done. cbn.
  repeat split. by rewrite drop_app_length.
Qed.

(** C6: with the exported timer behind the resolved symbol, when the
    callable raises on its [k]-th invocation and [k] is at most the count,
    [timeit] raises that exception and returns no duration. *)
Theorem callable_exception_propagates env f callback number st k e :
  fallback_loaded f st →
  exports_timer env f →
  raises_on callback k (world st) e →
  Z.of_nat k ≤ default 1000000 number →
  let run := timeit env callback number st in
  run.1 = Raise e ∧ (∀ r, run.1 ≠ Ret r).
Proof.
  intros Hst Hexp Hraise Hk run. subst run. rewrite (timeit_run env f) by done. cbn.
  rewrite !Hexp. unfold mpytimer_timeit.
  pose proof (call_times_raises callback k (Z.to_nat (default 1000000 number))
                (world st) e Hraise ltac:(lia)) as Hloop.
  unfold invoke. cbn [tramp_target].
  destruct (call_times callback _ _) as [[[]|e'] w']; cbn in *; [done|].
  injection Hloop as ->. done.
Qed.

(** C7: with the exported timer behind the resolved symbol and a clock that
    does not run backwards while the callable runs, the duration [timeit]
    returns for a non-negative count is at least zero; and it does return
    one when the callable does not raise. *)
Theorem timeit_nonnegative env f callback number st :
  fallback_loaded f st →
  exports_timer env f →
  clock_monotone callback →
  0 ≤ default 1000000 number →
  let run := timeit env callback number st in
  (∀ r, run.1 = Ret r → (0 <= r)%Q) ∧
  ((∀ w, ∃ w', callback w = (Ret tt, w')) → ∃ r, run.1 = Ret r).
Proof.
  intros Hst Hexp Hmono Hn run. subst run. rewrite (timeit_run env f) by done. cbn.
  rewrite !Hexp. unfold mpytimer_timeit, invoke. cbn [tramp_target].
  pose proof (call_times_clock callback (Z.to_nat (default 1000000 number))
                (world st) Hmono) as Hclock.
  split.
  - intros r. destruct (call_times callback _ _) as [[[]|e'] w']; cbn in *; [|done].
    intros [= <-]. unfold Qminus. by apply Qle_minus_iff in Hclock.
  - intros Hret.
    pose proof (call_times_returns callback (Z.to_nat (default 1000000 number))
                  (world st) Hret) as Hloop.
    destruct (call_times callback _ _) as [[[]|e'] w']; cbn in *; [|done].
    by eexists.
Qed.

(** C8: a call of [timeit], directly or through the exported name, and
    any sequence of such calls, leaves the module namespace as it was and
    opens and resolves nothing; after a load through the fallback path,
    [lib] and [_timeit] stay the handle and the symbol obtained at load, the
    one library opened and the one symbol resolved. *)
Theorem timeit_stateless env callback number cs st :
  module_state (timeit env callback number st).2 = module_state st ∧
  module_state (call_timeit env callback number st).2 = module_state st ∧
  module_state (run_calls (call_timeit env) cs st) = module_state st ∧
  (∀ w e h f,
     fasttimer_import env = Raise e →
     ffi_import env = Ret tt →
     dl_open env (library_path (module_file env)) = Ret h →
     dl_sym env h "d" "timeit" "Ci" = Ret f →
     let st' := run_calls (call_timeit env) cs
                          (fasttimer_init env (init_state env w)).2 in
     globals st' !! "lib" = Some (VLib h) ∧
     globals st' !! "_timeit" = Some (VNative f) ∧
     opened_paths (trace st') = [library_path (module_file env)] ∧
     resolved_symbols (trace st') = [(h, "d", "timeit", "Ci")]).
Proof.
  split; [apply timeit_frame|]. split; [apply call_timeit_frame|].
  split; [apply run_calls_frame, call_timeit_frame|].
  intros w e h f H0 H1 H2 H3 st'.
  pose proof (run_calls_frame (call_timeit env) cs
                (fasttimer_init env (init_state env w)).2
                (call_timeit_frame env)) as Hframe.
  fold st' in Hframe. unfold module_state in Hframe.
  injection Hframe as -> -> ->.
  rewrite fasttimer_init_run, H0, H1, H2. cbn. rewrite H3. cbn.
  unfold loaded_path. by simplify_map_eq.
Qed.

(** C10: every call of the fallback [timeit] constructs its own trampoline
    with [ffi.callback('v', callback, '')] and hands that one to the native
    call; over any sequence of calls, also of the same callable, there are
    as many constructions as calls and no trampoline is used twice. *)
Theorem fresh_trampoline_per_call env f cs st :
  fallback_loaded f st →
  let st' := run_calls (timeit env) cs st in
  let ids := seq (next_tramp st) (length cs) in
  ∃ new,
    trace st' = (trace st ++ new)%list ∧
    callbacks_made new = zip_with (λ c id, ("v", c.1, EmptyString, id)) cs ids ∧
    native_calls new
    = zip_with (λ c id, (f, MkTrampoline id c.1, default 1000000 c.2)) cs ids ∧
    NoDup ids.
Proof.
  intros Hst. cbn zeta. revert st Hst.
  induction cs as [|[c n] cs IH]; intros st Hst.
  - exists []. cbn. rewrite app_nil_r. repeat split. constructor.
  - cbn [run_calls]. rewrite (timeit_run env f) by done. cbn [snd].
    set (st1 := MkState _ _ _ _).
    destruct (IH st1) as (new & Htr & Hcb & Hcall & _); [exact Hst|].
    eexists (_ :: _ :: new). rewrite Htr. subst st1. cbn [trace next_tramp].
    rewrite <- app_assoc. split; [reflexivity|].
    cbn [trace next_tramp] in Hcb, Hcall.
    unfold callbacks_made, native_calls in *.
    cbn. rewrite Hcb, Hcall. repeat split.
    apply (NoDup_seq (next_tramp st) (S (length cs))).
Qed.

End Calling.

(** ** The theorems at work in the sample setting *)

Module SampleFacts.
Import Sample.

Lemma loaded_fallback : fallback_loaded 2%nat loaded.
Proof. split; vm_compute; reflexivity. Defined.

Lemma env_exports_timer imp : exports_timer (env imp) 2%nat.
Proof. intros cb count w. reflexivity. Defined.

Lemma tick_monotone : clock_monotone tick.
Proof.
  intros w. cbn. apply Qle_trans with (clock w + 0)%Q.
  - apply Qle_lteq. right. symmetry. apply Qplus_0_r.
  - apply Qplus_le_r. discriminate.
Defined.

Lemma fragile_raises_fourth : raises_on fragile 4 (world loaded) (Exception "ValueError").
Proof.
  split; [lia|]. exists (MkWorld (0 + 1 + 1 + 1)%Q tt).
  split; vm_compute; reflexivity.
Defined.

End SampleFacts.

(** With the compiled module present, [timeit] is its [timeit]; without
    it, and with the shared library there, [timeit] is the ffi-based
    definition. *)
Lemma timeit_two_tier_witness :
  strategy (fasttimer_init (Sample.env (Ret Sample.compiled))
              (init_state (Sample.env (Ret Sample.compiled)) Sample.w0)).2
  = Some (Compiled Sample.compiled) ∧
  (fasttimer_init (Sample.env (Raise (Exception "ImportError")))
     (init_state (Sample.env (Raise (Exception "ImportError"))) Sample.w0)).1
  = Ret tt ∧
  strategy Sample.loaded = Some DynamicFallback.
Proof.
  split.
  - destruct (timeit_two_tier (Sample.env (Ret Sample.compiled)) Sample.w0)
      as (_ & H & _).
    apply (H Sample.compiled eq_refl).
  - destruct (timeit_two_tier (Sample.env (Raise (Exception "ImportError")))
                Sample.w0) as (_ & _ & _ & _ & _ & H).
    destruct (H (Exception "ImportError") 1%nat 2%nat
                eq_refl eq_refl eq_refl eq_refl) as (H1 & H2 & _).
    split; [exact H1|exact H2].
Defined.

(** Without the shared library the module fails to load with the error of
    [ffi.open], and [timeit] is not bound. *)
Lemma no_third_fallback_witness :
  (fasttimer_init Sample.env_no_library
     (init_state Sample.env_no_library Sample.w0)).1 = Raise (Exception "OSError") ∧
  globals (fasttimer_init Sample.env_no_library
             (init_state Sample.env_no_library Sample.w0)).2 !! "timeit" = None.
Proof.
  apply (proj1 (no_third_fallback Sample.env_no_library Sample.w0)
               (Exception "ImportError") (Exception "OSError") eq_refl).
  right. left. split; reflexivity.
Defined.

Lemma symbol_resolution_contract_witness :
  resolved_symbols (trace Sample.loaded) = [(1%nat, "d", "timeit", "Ci")] ∧
  globals Sample.loaded !! "_timeit" = Some (VNative 2%nat).
Proof.
  destruct (symbol_resolution_contract (Sample.env (Raise (Exception "ImportError")))
              Sample.w0 (Exception "ImportError") 1%nat eq_refl eq_refl eq_refl)
    as (H1 & _ & _ & H2).
  split; [exact H1|exact (H2 2%nat eq_refl)].
Defined.

Lemma library_location_witness :
  opened_paths (trace Sample.loaded) = ["bench/fasttimer/_mpytimer.so"].
Proof.
  destruct (library_location (Sample.env (Raise (Exception "ImportError")))
              Sample.w0 (Exception "ImportError") eq_refl eq_refl) as (H & _).
  exact H.
Defined.

Lemma fallback_call_behaviour_witness :
  native_calls (drop (length (trace Sample.loaded))
                  (trace (timeit (Sample.env (Raise (Exception "ImportError")))
                            Sample.tick (Some 3) Sample.loaded).2))
  = [(2%nat, MkTrampoline 0 Sample.tick, 3)] ∧
  (timeit (Sample.env (Raise (Exception "ImportError")))
     Sample.tick (Some 3) Sample.loaded).1
  = (mpytimer_timeit (MkTrampoline 0 Sample.tick) 3 Sample.w0).1.
Proof.
  destruct (fallback_call_behaviour (Sample.env (Raise (Exception "ImportError")))
              2%nat Sample.tick (Some 3) Sample.loaded SampleFacts.loaded_fallback)
    as (_ & H1 & H2 & _).
  split; [exact H1|exact H2].
Defined.

(** A callable raising [ValueError] on its fourth invocation, timed for ten. *)
Lemma callable_exception_propagates_witness :
  (timeit (Sample.env (Raise (Exception "ImportError")))
     Sample.fragile (Some 10) Sample.loaded).1 = Raise (Exception "ValueError").
Proof.
  apply (callable_exception_propagates (Sample.env (Raise (Exception "ImportError")))
           2%nat Sample.fragile (Some 10) Sample.loaded 4 (Exception "ValueError")
           SampleFacts.loaded_fallback (SampleFacts.env_exports_timer _)
           SampleFacts.fragile_raises_fourth).
  cbn. lia.
Defined.

Lemma timeit_nonnegative_witness :
  ∃ r, (timeit (Sample.env (Raise (Exception "ImportError")))
          Sample.tick (Some 5) Sample.loaded).1 = Ret r ∧ (0 <= r)%Q.
Proof.
  destruct (timeit_nonnegative (Sample.env (Raise (Exception "ImportError")))
              2%nat Sample.tick (Some 5) Sample.loaded
              SampleFacts.loaded_fallback (SampleFacts.env_exports_timer _)
              SampleFacts.tick_monotone ltac:(cbn; lia)) as [Hnn Hret].
  destruct Hret as [r Hr].
  - intros w. eexists. reflexivity.
  - exists r. split; [exact Hr|exact (Hnn r Hr)].
Defined.

(** Two calls after a load through the fallback path: [lib] and [_timeit]
    are what the load made them. *)
Lemma timeit_stateless_witness :
  globals (run_calls (call_timeit (Sample.env (Raise (Exception "ImportError"))))
             [(Sample.tick, Some 2); (Sample.failing, Some 2)] Sample.loaded) !! "lib"
  = Some (VLib 1%nat) ∧
  globals (run_calls (call_timeit (Sample.env (Raise (Exception "ImportError"))))
             [(Sample.tick, Some 2); (Sample.failing, Some 2)] Sample.loaded) !! "_timeit"
  = Some (VNative 2%nat).
Proof.
  destruct (timeit_stateless (Sample.env (Raise (Exception "ImportError")))
              Sample.tick None [(Sample.tick, Some 2); (Sample.failing, Some 2)]
              Sample.loaded) as (_ & _ & _ & H).
  destruct (H Sample.w0 (Exception "ImportError") 1%nat 2%nat
              eq_refl eq_refl eq_refl eq_refl) as (H1 & H2 & _).
  split; [exact H1|exact H2].
Defined.

(** An error that is not an import error diverts to the fallback as well. *)
Lemma any_exception_diverts_witness :
  fasttimer_init (Sample.env (Raise (Exception "SystemError")))
    (init_state (Sample.env (Raise (Exception "SystemError"))) Sample.w0)
  = fallback (Sample.env (Raise (Exception "SystemError")))
      (MkState {[ "__file__" := VStr "bench/fasttimer/__init__.py" ]}
               [EvImport "._fasttimer"] 0 Sample.w0).
Proof.
  apply (any_exception_diverts (Sample.env (Raise (Exception "SystemError")))
           Sample.w0 (Exception "SystemError") eq_refl).
Defined.

(** The same callable timed twice gets two trampolines. *)
Lemma fresh_trampoline_per_call_witness :
  ∃ new,
    trace (run_calls (timeit (Sample.env (Raise (Exception "ImportError"))))
             [(Sample.tick, Some 2); (Sample.tick, Some 2)] Sample.loaded)
    = (trace Sample.loaded ++ new)%list ∧
    callbacks_made new
    = [("v", Sample.tick, EmptyString, 0%nat); ("v", Sample.tick, EmptyString, 1%nat)].
Proof.
  destruct (fresh_trampoline_per_call (Sample.env (Raise (Exception "ImportError")))
              2%nat [(Sample.tick, Some 2); (Sample.tick, Some 2)] Sample.loaded
              SampleFacts.loaded_fallback) as (new & H1 & H2 & _).
  exists new. split; [exact H1|exact H2].
Defined.

(** * Properties of the benchmark scripts *)

(** ** [bench/fib.py] *)

Module FibFacts.
Import Fib.

Lemma fibonacci_step k : fibonacci (S (S k)) = fibonacci k + fibonacci (S k).
Proof.
  unfold fibonacci. cbn [fib_pair]. destruct (fib_pair k) as [a b]. reflexivity.
Qed.

Lemma fibonacci_nonneg k : 0 ≤ fibonacci k ∧ 0 ≤ fibonacci (S k).
Proof.
  induction k as [|k [IH1 IH2]]; [done|].
  split; [done|]. rewrite fibonacci_step. lia.
Qed.

(** A call with room enough on the stack: its value and the calls it adds. *)
Lemma fib_run frames n c :
  (frames_needed n ≤ frames)%nat →
  ∃ c', fib frames n c
        = (Ret (if n <? 0 then n else fibonacci (Z.to_nat n)), c') ∧
        Z.of_nat c' = Z.of_nat c + (if n <? 0 then 1
                                    else 2 * fibonacci (S (Z.to_nat n)) - 1).
Proof.
  unfold frames_needed. revert n c.
  induction frames as [|frames IH]; intros n c Hn; [lia|].
  cbn [fib]. destruct (Z.ltb_spec n 2) as [Hlt|Hge].
  - exists (S c). destruct (Z.ltb_spec n 0) as [Hneg|Hpos]; [split; [done|lia]|].
    assert (n = 0 ∨ n = 1) as [-> | ->] by lia.
    + change (Z.to_nat 0) with 0%nat. change (fibonacci 1) with 1.
      split; [done|lia].
    + change (Z.to_nat 1) with 1%nat. change (fibonacci 2) with 1.
      split; [done|lia].
  - destruct (IH (n - 2) (S c)) as (c1 & E1 & Hc1); [lia|].
    destruct (IH (n - 1) c1) as (c2 & E2 & Hc2); [lia|].
    unfold and_then. rewrite E1, E2. exists c2.
    destruct (Z.ltb_spec (n - 2) 0); [lia|].
    destruct (Z.ltb_spec (n - 1) 0); [lia|].
    destruct (Z.ltb_spec n 0); [lia|].
    replace (Z.to_nat n) with (S (S (Z.to_nat (n - 2)))) by lia.
    replace (Z.to_nat (n - 1)) with (S (Z.to_nat (n - 2))) in * by lia.
    rewrite !fibonacci_step in *. split; [done|lia].
Qed.

(** [fib] raises nothing but [RecursionError]. *)
Lemma fib_raises frames n c e :
  (fib frames n c).1 = Raise e → e = Exception "RecursionError".
Proof.
  revert n c. induction frames as [|frames IH]; intros n c; cbn [fib].
  - by intros [= <-].
  - destruct (n <? 2); [done|]. unfold and_then.
    destruct (fib frames (n - 2) (S c)) as [[a|e1] c1] eqn:E1.
    + destruct (fib frames (n - 1) c1) as [[b|e2] c2] eqn:E2; [done|].
      cbn. intros [= <-]. apply (IH (n - 1) c1). by rewrite E2.
    + cbn. intros [= <-]. apply (IH (n - 2) (S c)). by rewrite E1.
Qed.

Lemma fib_overflow frames n c :
  (frames < frames_needed n)%nat →
  (fib frames n c).1 = Raise (Exception "RecursionError").
Proof.
  unfold frames_needed. revert n c.
  induction frames as [|frames IH]; intros n c Hn; [done|].
  cbn [fib]. destruct (Z.ltb_spec n 2) as [Hlt|Hge]; [lia|].
  unfold and_then.
  destruct (fib frames (n - 2) (S c)) as [[a|e1] c1] eqn:E1.
  - specialize (IH (n - 1) c1 ltac:(lia)).
    destruct (fib frames (n - 1) c1) as [[b|e2] c2]; [done|exact IH].
  - cbn. f_equal. apply (fib_raises frames (n - 2) (S c)). by rewrite E1.
Qed.

End FibFacts.

(** X1: with room enough on the call stack, [fib(n)] returns [n] itself
    for every [n] below 2, negative ones included, and the [n]-th Fibonacci
    number for every [n] from 0 on. *)
Theorem fib_value frames n c :
  (Fib.frames_needed n ≤ frames)%nat →
  (n < 2 → (Fib.fib frames n c).1 = Ret n) ∧
  (0 ≤ n → (Fib.fib frames n c).1 = Ret (Fib.fibonacci (Z.to_nat n))).
Proof.
  intros Hn. destruct (FibFacts.fib_run frames n c Hn) as (c' & -> & _). cbn.
  split; intros H.
  - destruct (Z.ltb_spec n 0); [done|].
    assert (n = 0 ∨ n = 1) as [-> | ->] by lia; done.
  - by destruct (Z.ltb_spec n 0); [lia|].
Qed.

(** X3: a call [fib(n)] that returns enters [fib] once for [n] below 2 and
    [2 * F(n+1) - 1] times for [n] from 0 on, [F] the Fibonacci numbers. *)
Theorem fib_call_count frames n c :
  (Fib.frames_needed n ≤ frames)%nat →
  (n < 2 → (Fib.fib frames n c).2 = S c) ∧
  (0 ≤ n →
   Z.of_nat (Fib.fib frames n c).2
   = Z.of_nat c + 2 * Fib.fibonacci (S (Z.to_nat n)) - 1).
Proof.
  intros Hn. destruct (FibFacts.fib_run frames n c Hn) as (c' & -> & Hc). cbn.
  split; intros H.
  - destruct (Z.ltb_spec n 0); [lia|].
    assert (n = 0 ∨ n = 1) as [-> | ->] by lia.
    + change (Fib.fibonacci (S (Z.to_nat 0))) with 1 in Hc. lia.
    + change (Fib.fibonacci (S (Z.to_nat 1))) with 1 in Hc. lia.
  - destruct (Z.ltb_spec n 0); lia.
Qed.

(** X4: the callable [__main__] of [fib.py] returns nothing, after 2692537
    calls of [fib], when the call stack has room for 31 frames, and raises
    [RecursionError] when it has not. *)
Theorem fib_main_run frames c :
  ((31 ≤ frames)%nat →
   (Fib.__main__ frames c).1 = Ret tt ∧
   Z.of_nat (Fib.__main__ frames c).2 = Z.of_nat c + 2692537) ∧
  ((frames < 31)%nat →
   (Fib.__main__ frames c).1 = Raise (Exception "RecursionError")).
Proof.
  split; intros H.
  - destruct frames as [|frames]; [lia|]. cbn [Fib.__main__]. unfold and_then.
    destruct (FibFacts.fib_run frames 30 c) as (c' & -> & Hc).
    { unfold Fib.frames_needed. lia. }
    cbn [fst snd]. split; [done|].
    change (Fib.fibonacci (S (Z.to_nat 30))) with 1346269 in Hc.
    change (30 <? 0) with false in Hc. lia.
  - destruct frames as [|frames]; [done|]. cbn [Fib.__main__]. unfold and_then.
    assert (Ho : (Fib.fib frames 30 c).1 = Raise (Exception "RecursionError")).
    { apply FibFacts.fib_overflow. unfold Fib.frames_needed. lia. }
    destruct (Fib.fib frames 30 c) as [[v|e] c']; cbn in *; [done|].
    by injection Ho as ->.
Qed.

(** ** [bench/maketree.py] *)

Module MakeTreeFacts.
Import MakeTree.

Lemma height_for_nonpositive depth : depth ≤ 0 → height_for depth = 0%nat.
Proof. unfold height_for. lia. Qed.

Lemma height_for_positive depth :
  0 < depth → height_for depth = S (height_for (depth - 1)).
Proof. unfold height_for. lia. Qed.

(** A call with room enough on the stack: the tree and the nodes it adds. *)
Lemma makeTree_run frames depth c :
  (height_for depth + 2 ≤ frames)%nat →
  ∃ t, makeTree frames depth c = (Ret t, (c + size t)%nat) ∧
       is_perfect (height_for depth) t = true ∧
       (size t + 1 = 2 ^ (height_for depth + 1))%nat.
Proof.
  revert depth c. induction frames as [|frames IH]; intros depth c Hf; [lia|].
  cbn [makeTree]. destruct (Z.leb_spec depth 0) as [Hle|Hgt].
  - rewrite height_for_nonpositive in * by done.
    destruct frames as [|frames]; [lia|].
    exists (MkNode None None). cbn. split; [f_equal; lia|done].
  - rewrite (height_for_positive depth) in * by done.
    set (h := height_for (depth - 1)) in *.
    destruct (IH (depth - 1) c) as (t1 & E1 & P1 & S1); [fold h; lia|].
    destruct (IH (depth - 1) (c + size t1)%nat) as (t2 & E2 & P2 & S2); [fold h; lia|].
    fold h in P1, P2, S1, S2.
    unfold and_then. rewrite E1, E2.
    destruct frames as [|frames]; [lia|].
    exists (MkNode (Some t1) (Some t2)). cbn [new_node size is_perfect].
    split; [f_equal; lia|]. split; [by rewrite P1, P2|].
    replace (S h + 1)%nat with (S (h + 1)) by lia. rewrite Nat.pow_succ_r'. lia.
Qed.

End MakeTreeFacts.

(** X5: with room enough on the call stack, [makeTree(depth)] returns a
    perfect binary tree of height [max(depth, 0)], a single leaf for
    [depth <= 0]: every node has two children or none, every leaf is at
    that depth, and there are [2^(height+1) - 1] nodes. *)
Theorem makeTree_perfect frames depth c :
  (MakeTree.height_for depth + 2 ≤ frames)%nat →
  ∃ t, (MakeTree.makeTree frames depth c).1 = Ret t ∧
       MakeTree.is_perfect (MakeTree.height_for depth) t = true ∧
       (MakeTree.size t + 1 = 2 ^ (MakeTree.height_for depth + 1))%nat ∧
       (depth ≤ 0 → t = MakeTree.MkNode None None).
Proof.
  intros Hf.
  destruct (MakeTreeFacts.makeTree_run frames depth c Hf) as (t & E & P & S).
  exists t. rewrite E. repeat split; try done.
  intros Hle. rewrite MakeTreeFacts.height_for_nonpositive in P by done.
  destruct t as [[l|] [r|]]; done.
Qed.

(** X6: every [Node] of the tree is constructed by the call itself: a call
    [makeTree(depth)] that returns has made as many [Node] objects as its
    tree has nodes, [2^(max(depth,0)+1) - 1], sharing none. *)
Theorem makeTree_allocations frames depth c :
  (MakeTree.height_for depth + 2 ≤ frames)%nat →
  ((MakeTree.makeTree frames depth c).2 + 1
   = c + 2 ^ (MakeTree.height_for depth + 1))%nat.
Proof.
  intros Hf.
  destruct (MakeTreeFacts.makeTree_run frames depth c Hf) as (t & E & P & S).
  rewrite E. cbn. lia.
Qed.

(** ** [bench/list.py] *)

(** X8: whatever the list holds, [func()] returns without raising and
    leaves the list as it found it, and so does any number of calls in a
    row: [pop()] always finds the element [add(1)] has just put there. *)
Theorem func_restores_list n l :
  ListBench.func l = (Ret tt, l) ∧
  ListBench.calls ListBench.func n l = (Ret tt, l).
Proof.
  assert (Hf : ∀ l', ListBench.func l' = (Ret tt, l')).
  { intros l'. unfold ListBench.func, ListBench.add, ListBench.pop.
    by rewrite last_snoc, removelast_last. }
  split; [apply Hf|].
  induction n as [|n IH]; [done|]. cbn [ListBench.calls]. by rewrite Hf.
Qed.

(** ** [bench/inner_loop.py] *)

Module InnerLoopFacts.
Import InnerLoop.

Lemma has_needle_app a b : has_needle (a ++ b) = has_needle a || has_needle b.
Proof. apply existsb_app. Qed.

Lemma looked_at_app a b :
  looked_at (a ++ b)
  = if has_needle a then looked_at a else (looked_at a + looked_at b)%nat.
Proof.
  unfold has_needle in *. induction a as [|x a IH]; [done|]. cbn.
  destruct (x =? 42); [done|]. cbn. rewrite IH. by destruct (existsb _ a).
Qed.

(** A loop whose body looks through a part of the numbers at each turn
    looks through all of them. *)
Lemma for_in_searches {A} (part : A → list Z) (l : list A) body hb mb h m :
  (∀ x, searches (part x) hb mb (body x)) →
  loop_exit hb = Some h →
  loop_exit mb = None →
  searches (concat (part <$> l)) h m (for_in l body (jump m)).
Proof.
  intros Hbody Hh Hm. induction l as [|x l IH]; intros st.
  - cbn. exists (z st). destruct st. cbn. by rewrite Nat.add_0_r.
  - cbn [fmap list_fmap concat for_in].
    rewrite has_needle_app, looked_at_app.
    specialize (Hbody x st). destruct (has_needle (part x)).
    + rewrite Hbody. cbn. destruct hb; cbn in Hh; try done; by injection Hh as <-.
    + destruct Hbody as [z' ->]. cbn [orb].
      specialize (IH (MkLocals z' (tests st + looked_at (part x)))).
      cbn [tests] in IH. rewrite Nat.add_assoc.
      destruct mb; cbn in Hm; try done; exact IH.
Qed.

Lemma for_z_searches zs hit hb h m :
  (∀ n, hit 42 (MkLocals (Some 42) n) = (hb, MkLocals (Some 42) n)) →
  loop_exit hb = Some h →
  searches zs h m (for_z zs hit (jump m)).
Proof.
  intros Hhit Hh.
  replace zs with (concat ((λ x, [x]) <$> zs)) at 1.
  2: { induction zs as [|x zs IH]; [done|]. cbn. by rewrite IH. }
  apply (for_in_searches (λ x, [x]) zs _ hb Normal); [|done|done].
  intros x st. cbn. rewrite orb_false_r.
  destruct (Z.eqb_spec x 42) as [->|Hne].
  - rewrite Hhit. do 2 f_equal. lia.
  - exists (Some x). do 2 f_equal. destruct (x =? 42); lia.
Qed.

Lemma then_eq s1 s2 st :
  then_ s1 s2 st = match s1 st with
                   | (Normal, st') => s2 st'
                   | r => r
                   end.
Proof. reflexivity. Qed.

Lemma then_jump_searches l m hb s :
  searches l Normal m s → m ≠ Normal → searches l hb m (then_ s (jump hb)).
Proof.
  intros Hs Hm st. specialize (Hs st). unfold then_.
  destruct (has_needle l).
  - by rewrite Hs.
  - destruct Hs as [z' ->]. exists z'. by destruct m.
Qed.

Lemma concat_id (l : list (list Z)) : concat (id <$> l) = concat l.
Proof. by rewrite list_fmap_id. Qed.

Lemma flatten_concat (xs : list (list (list Z))) :
  concat (@concat Z <$> xs) = flatten xs.
Proof. unfold flatten. induction xs as [|ys xs IH]; [done|]. cbn. by rewrite concat_app, IH. Qed.

Lemma breaks_searches xs :
  searches (flatten xs) (Return (Some 42)) (Return None) (breaks_body xs).
Proof.
  assert (Houter : searches (flatten xs) Normal (Return None)
            (for_in xs
               (λ ys, then_ (for_in ys
                               (λ zs, then_ (for_z zs (λ _, jump Break) (jump Continue))
                                            (jump Break))
                               (jump Continue))
                            (jump Break))
               (jump (Return None)))).
  { rewrite <- flatten_concat.
    apply (for_in_searches (@concat Z) xs _ Break Continue); [|done|done].
    intros ys. apply then_jump_searches; [|done].
    rewrite <- concat_id.
    apply (for_in_searches id ys _ Break Continue); [|done|done].
    intros zs. apply then_jump_searches; [|done].
    by apply (for_z_searches zs _ Break). }
  intros st. specialize (Houter st). unfold breaks_body.
  destruct (has_needle (flatten xs)).
  - by rewrite then_eq, Houter.
  - destruct Houter as [z' Hz]. exists z'. by rewrite then_eq, Hz.
Qed.

Lemma exceptions_searches xs :
  searches (flatten xs) (Return (Some 42)) Normal (exceptions_body xs).
Proof.
  assert (Hloops : searches (flatten xs) (Throw (FoundIt 42)) Normal
            (for_in xs
               (λ ys, for_in ys
                        (λ zs, for_z zs (λ x, jump (Throw (FoundIt x))) (jump Normal))
                        (jump Normal))
               (jump Normal))).
  { rewrite <- flatten_concat.
    apply (for_in_searches (@concat Z) xs _ (Throw (FoundIt 42)) Normal); [|done|done].
    intros ys. rewrite <- concat_id.
    apply (for_in_searches id ys _ (Throw (FoundIt 42)) Normal); [|done|done].
    intros zs. by apply (for_z_searches zs _ (Throw (FoundIt 42))). }
  intros st. specialize (Hloops st). unfold exceptions_body, try_FoundIt.
  destruct (has_needle (flatten xs)).
  - by rewrite Hloops.
  - destruct Hloops as [z' Hz]. exists z'. by rewrite Hz.
Qed.

Lemma inner_searches xs :
  searches (flatten xs) (Return (Some 42)) Normal (_inner_body xs).
Proof.
  unfold _inner_body. rewrite <- flatten_concat.
  apply (for_in_searches (@concat Z) xs _ (Return (Some 42)) Normal); [|done|done].
  intros ys. rewrite <- concat_id.
  apply (for_in_searches id ys _ (Return (Some 42)) Normal); [|done|done].
  intros zs. by apply (for_z_searches zs _ (Return (Some 42))).
Qed.

End InnerLoopFacts.

(** X9: on every [xs] the three functions [breaks], [exceptions] and
    [functions] return the same: 42 when 42 is among the numbers of [xs],
    [None] when it is not; none of them raises, [FoundIt] never leaves
    [exceptions] and [breaks] never reads [z] unbound. *)
Theorem exit_strategies_agree xs :
  let r := if InnerLoop.has_needle (InnerLoop.flatten xs) then Some 42 else None in
  InnerLoop.breaks xs = Ret r ∧
  InnerLoop.exceptions xs = Ret r ∧
  InnerLoop.functions xs = Ret r.
Proof.
  pose proof (InnerLoopFacts.breaks_searches xs (InnerLoop.MkLocals None 0)) as Hb.
  pose proof (InnerLoopFacts.exceptions_searches xs (InnerLoop.MkLocals None 0)) as He.
  pose proof (InnerLoopFacts.inner_searches xs (InnerLoop.MkLocals None 0)) as Hi.
  unfold InnerLoop.functions, InnerLoop._inner, InnerLoop.breaks,
    InnerLoop.exceptions, InnerLoop.call.
  destruct (InnerLoop.has_needle (InnerLoop.flatten xs)).
  - by rewrite Hb, He, Hi.
  - destruct Hb as [? ->], He as [? ->], Hi as [? ->]. done.
Qed.

(** X10: on every [xs] the three functions evaluate [z == 42] equally
    often: once for each number up to and with the first 42, in the order
    of the loops, and once for every number when there is no 42. *)
Theorem exit_strategies_same_tests xs :
  InnerLoop.tests_made (InnerLoop.breaks_body xs)
  = InnerLoop.looked_at (InnerLoop.flatten xs) ∧
  InnerLoop.tests_made (InnerLoop.exceptions_body xs)
  = InnerLoop.looked_at (InnerLoop.flatten xs) ∧
  InnerLoop.tests_made (InnerLoop._inner_body xs)
  = InnerLoop.looked_at (InnerLoop.flatten xs).
Proof.
  pose proof (InnerLoopFacts.breaks_searches xs (InnerLoop.MkLocals None 0)) as Hb.
  pose proof (InnerLoopFacts.exceptions_searches xs (InnerLoop.MkLocals None 0)) as He.
  pose proof (InnerLoopFacts.inner_searches xs (InnerLoop.MkLocals None 0)) as Hi.
  unfold InnerLoop.tests_made.
  destruct (InnerLoop.has_needle (InnerLoop.flatten xs)).
  - by rewrite Hb, He, Hi.
  - destruct Hb as [? ->], He as [? ->], Hi as [? ->]. done.
Qed.

(** X11: the [xs] the script builds has 27000 numbers and its only 42 is
    the last one the loops come to, so each of the three functions returns
    42 after testing all 27000. *)
Theorem script_needle_is_last :
  ∃ d, InnerLoop.xs = Ret d ∧
       Z.of_nat (length (InnerLoop.flatten d)) = 27000 ∧
       Z.of_nat (InnerLoop.looked_at (InnerLoop.flatten d)) = 27000 ∧
       InnerLoop.breaks d = Ret (Some 42) ∧
       InnerLoop.exceptions d = Ret (Some 42) ∧
       InnerLoop.functions d = Ret (Some 42).
Proof.
  eexists. split; [vm_compute; reflexivity|].
  repeat split; vm_compute; reflexivity.
Qed.

(** ** More on [bench/fasttimer/__init__.py] *)

Section MoreLoading.
Context {U : Type}.
Implicit Types (env : Env U) (w : World U) (st : State U).

(** A call through the exported name when it is the compiled timer. *)
Lemma call_timeit_compiled env t callback number st :
  globals st !! "timeit" = Some (VBuiltin t) →
  call_timeit env callback number st
  = ((t callback number (world st)).1,
     MkState (globals st) (trace st) (next_tramp st)
             (t callback number (world st)).2).
Proof.
  intros Ht. unfold call_timeit. rewrite (bind_load _ _ _ _ Ht).
  unfold in_world. by destruct (t callback number (world st)).
Qed.

(** X12: when the compiled module is there, nothing of the [ffi] path is
    ever used: after the load and any sequence of calls through the
    exported name the only request made is the import of [._fasttimer], no
    trampoline was constructed, and each call is the compiled timer's. *)
Theorem compiled_path_uses_no_ffi env t cs w :
  fasttimer_import env = Ret t →
  let st0 := (fasttimer_init env (init_state env w)).2 in
  trace (run_calls (call_timeit env) cs st0) = [EvImport "._fasttimer"] ∧
  next_tramp (run_calls (call_timeit env) cs st0) = 0%nat ∧
  (∀ callback number,
     (call_timeit env callback number st0).1 = (t callback number w).1).
Proof.
  intros Ht st0.
  assert (Hinv : ∀ st, globals st !! "timeit" = Some (VBuiltin t) →
            trace (run_calls (call_timeit env) cs st) = trace st ∧
            next_tramp (run_calls (call_timeit env) cs st) = next_tramp st).
  { induction cs as [|[c n] cs IH]; intros st Hst; [done|].
    cbn [run_calls]. rewrite (call_timeit_compiled env t) by done. cbn [snd].
    by destruct (IH (MkState (globals st) (trace st) (next_tramp st)
                            (t c n (world st)).2) Hst) as [-> ->]. }
  assert (Hst0 : st0 = MkState (<["timeit" := VBuiltin t]>
                                  {[ "__file__" := VStr (module_file env) ]})
                               [EvImport "._fasttimer"] 0 w).
  { subst st0. by rewrite fasttimer_init_run, Ht. }
  assert (Hb : globals st0 !! "timeit" = Some (VBuiltin t)).
  { rewrite Hst0. cbn. by simplify_map_eq. }
  destruct (Hinv st0 Hb) as [-> ->]. rewrite Hst0 at 1 2. cbn [trace next_tramp].
  repeat split. intros callback number.
  rewrite (call_timeit_compiled env t) by done. by rewrite Hst0.
Qed.

(** X13: the names of the fallback are bound by the fallback alone: after
    a load through the compiled module none of [ffi], [path], [lib] and
    [_timeit] is bound; after a load through the fallback [ffi] is the
    module, [lib] the opened library, [_timeit] the resolved symbol,
    [timeit] the definition, and [path] the directory string, no longer
    the list of components it held first. *)
Theorem module_namespace env w :
  let st := (fasttimer_init env (init_state env w)).2 in
  (∀ t, fasttimer_import env = Ret t →
        globals st !! "ffi" = None ∧ globals st !! "path" = None ∧
        globals st !! "lib" = None ∧ globals st !! "_timeit" = None) ∧
  (∀ e h f,
     fasttimer_import env = Raise e →
     ffi_import env = Ret tt →
     dl_open env (library_path (module_file env)) = Ret h →
     dl_sym env h "d" "timeit" "Ci" = Ret f →
     globals st !! "ffi" = Some (VModule "ffi") ∧
     globals st !! "path" = Some (VStr (directory_portion (module_file env))) ∧
     globals st !! "lib" = Some (VLib h) ∧
     globals st !! "_timeit" = Some (VNative f) ∧
     globals st !! "timeit" = Some VDefTimeit).
Proof.
  intros st. subst st. rewrite fasttimer_init_run. split.
  - intros t ->. cbn. by simplify_map_eq.
  - intros e h f -> -> H2 H3. cbn. rewrite H2. cbn. rewrite H3. cbn.
    unfold loaded_path. simplify_map_eq. by rewrite path_of_directory.
Qed.

End MoreLoading.

Lemma before_last_split c s d :
  PyStr.before_last c s = Some d →
  ∃ name, PyStr.occurs c name = false ∧ s = d +:+ String c name.
Proof.
  revert d. induction s as [|x s IH]; intros d; cbn; [done|].
  destruct (PyStr.before_last c s) as [p|] eqn:Hp.
  - intros [= <-]. destruct (IH p eq_refl) as (name & Hn & ->).
    exists name. done.
  - destruct (Ascii.eqb_spec x c) as [->|]; [|done]. intros [= <-].
    exists s. split; [|done]. by apply PyStrFacts.before_last_none.
Qed.

(** X14: when [__file__] has a ['/'], the path the fallback opens differs
    from [__file__] in its last component only: [__file__] is [dir/name]
    with no ['/'] in [name], and the library is [dir/_mpytimer.so]. *)
Theorem library_beside_module file :
  PyStr.occurs "/" file = true →
  ∃ dir name,
    PyStr.occurs "/" name = false ∧
    file = dir +:+ String "/" name ∧
    library_path file = dir +:+ "/_mpytimer.so".
Proof.
  intros Hocc. unfold library_path. rewrite path_of_directory.
  unfold directory_portion.
  destruct (PyStr.before_last "/" file) as [d|] eqn:Hd.
  - destruct (before_last_split "/" file d Hd) as (name & Hn & Hf).
    by exists d, name.
  - apply PyStrFacts.before_last_none in Hd. congruence.
Qed.

(** ** The theorems on the scripts at work *)

Lemma fib_value_witness : (Fib.fib 10 10 0%nat).1 = Ret 55.
Proof.
  destruct (fib_value 10%nat 10 0%nat ltac:(vm_compute; lia)) as [_ H].
  exact (H ltac:(lia)).
Defined.

Lemma fib_call_count_witness : Z.of_nat (Fib.fib 10 10 0%nat).2 = 177.
Proof.
  destruct (fib_call_count 10%nat 10 0%nat ltac:(vm_compute; lia)) as [_ H].
  exact (H ltac:(lia)).
Defined.

Lemma makeTree_perfect_witness :
  ∃ t, (MakeTree.makeTree 5 3 0%nat).1 = Ret t ∧
       MakeTree.is_perfect 3 t = true ∧ MakeTree.size t = 15%nat.
Proof.
  destruct (makeTree_perfect 5%nat 3 0%nat ltac:(vm_compute; lia)) as (t & H1 & H2 & H3 & _).
  exists t. split; [exact H1|]. split; [exact H2|].
  change (2 ^ (MakeTree.height_for 3 + 1))%nat with 16%nat in H3. lia.
Defined.

Lemma makeTree_allocations_witness : (MakeTree.makeTree 5 3 0%nat).2 = 15%nat.
Proof.
  pose proof (makeTree_allocations 5%nat 3 0%nat ltac:(vm_compute; lia)) as H.
  change (2 ^ (MakeTree.height_for 3 + 1))%nat with 16%nat in H. lia.
Defined.

Lemma compiled_path_uses_no_ffi_witness :
  trace (run_calls (call_timeit (Sample.env (Ret Sample.compiled)))
           [(Sample.tick, Some 2); (Sample.failing, None)]
           (fasttimer_init (Sample.env (Ret Sample.compiled))
              (init_state (Sample.env (Ret Sample.compiled)) Sample.w0)).2)
  = [EvImport "._fasttimer"].
Proof.
  destruct (compiled_path_uses_no_ffi (Sample.env (Ret Sample.compiled))
              Sample.compiled [(Sample.tick, Some 2); (Sample.failing, None)]
              Sample.w0 eq_refl) as (H & _).
  exact H.
Defined.

Lemma library_beside_module_witness :
  ∃ dir name,
    PyStr.occurs "/" name = false ∧
    "bench/fasttimer/__init__.py" = dir +:+ String "/" name ∧
    library_path "bench/fasttimer/__init__.py" = dir +:+ "/_mpytimer.so".
Proof.
  apply (library_beside_module "bench/fasttimer/__init__.py"). reflexivity.
Defined.
